(** * openlit-chatbot: the image artifact handler, the model provider and
      the resumable streaming pipeline

    Shallow embedding of
    - [artifacts/image/server.ts]  (the image document handler),
    - the provider module          (the [myProvider] selector table),
    and a model of the resumable stream context described in the
    specification, against which the ordering and resumption properties
    are stated. *)

From stdpp Require Import base gmap strings list.

Open Scope string_scope.
Open Scope list_scope.
Open Scope nat_scope.

(* ===================================================================== *)
(** ** Deltas and the data stream writer *)
(* ===================================================================== *)

(** A [DataStreamDelta] as the handlers build it: an object literal with a
    [type] tag and a [content] payload, both JavaScript strings. *)
Record Delta : Type := mkDelta { type : string; content : string }.

#[global] Instance Delta_eq_dec : EqDecision Delta.
Proof. solve_decision. Defined.

(** The outcome of an [async] function once its promise settles. *)
Inductive Settled (A : Type) : Type :=
  | Fulfilled (a : A)
  | Rejected (reason : string).
Arguments Fulfilled {A} a.
Arguments Rejected {A} reason.

(** An [async] callback that holds a [dataStream]: it is run against the
    deltas already written to the stream and leaves the stream extended,
    settling with a value or a rejection. *)
Definition Async (A : Type) : Type := list Delta -> Settled A * list Delta.

Definition throw {A} (reason : string) : Async A := fun ds => (Rejected reason, ds).

#[global] Instance Async_ret : MRet Async :=
  fun A (a : A) ds => (Fulfilled a, ds).

#[global] Instance Async_bind : MBind Async :=
  fun A B (k : A -> Async B) (m : Async A) ds =>
    match m ds with
    | (Fulfilled a, ds') => k a ds'
    | (Rejected r, ds') => (Rejected r, ds')
    end.

(** [dataStream.writeData(d)]: the delta is appended to the stream. *)
Definition writeData (d : Delta) : Async unit := fun ds => (Fulfilled tt, ds ++ [d]).

(** The deltas a call emits, and what it settles with, on a fresh stream. *)
Definition emitted {A} (m : Async A) : list Delta := snd (m []).
Definition settles {A} (m : Async A) : Settled A := fst (m []).

(* ===================================================================== *)
(** ** The image document handler ([artifacts/image/server.ts]) *)
(* ===================================================================== *)

Inductive ArtifactKind : Type := text | code | sheet | image.

#[global] Instance ArtifactKind_eq_dec : EqDecision ArtifactKind.
Proof. solve_decision. Defined.

(** Modelled from the spec: the [Document] record of the data model
    (identifier, title, kind, full content, owner); its declaration lives in
    the database schema. *)
Record Document : Type := mkDocument {
  doc_id : string;
  doc_title : string;
  doc_kind : ArtifactKind;
  doc_content : string;
  doc_userId : string
}.

(** The properties the two callbacks receive next to [dataStream]. *)
Record CreateDocumentCallbackProps : Type := mkCreateProps {
  id : string;
  title : string
}.

Record UpdateDocumentCallbackProps : Type := mkUpdateProps {
  document : Document;
  description : string
}.

(** The configuration object handed to [createDocumentHandler]. *)
Record DocumentHandler : Type := mkHandler {
  kind : ArtifactKind;
  onCreateDocument : CreateDocumentCallbackProps -> Async string;
  onUpdateDocument : UpdateDocumentCallbackProps -> Async string
}.

Module Image.

(** The one delta both callbacks write. *)
Definition imageDelta : Delta := {| type := "image-delta"; content := "" |}.

(** The text both callbacks bind to their local [errorMsg]. *)
Definition errorMsg : string :=
  "Image generation is not supported with Anthropic models.".

Definition onCreateDocument (props : CreateDocumentCallbackProps) : Async string :=
  (* Anthropic does not support image generation. Return an error message. *)
  let errorMsg := "Image generation is not supported with Anthropic models." in
  writeData {| type := "image-delta"; content := "" |} ;;
  mret errorMsg.

Definition onUpdateDocument (props : UpdateDocumentCallbackProps) : Async string :=
  (* Anthropic does not support image generation. Return an error message. *)
  let errorMsg := "Image generation is not supported with Anthropic models." in
  writeData {| type := "image-delta"; content := "" |} ;;
  mret errorMsg.

End Image.

Definition imageDocumentHandler : DocumentHandler :=
  {| kind := image;
     onCreateDocument := Image.onCreateDocument;
     onUpdateDocument := Image.onUpdateDocument |}.

(** A terminal delta: its type is [finish]. *)
Definition isFinish (d : Delta) : bool := bool_decide (type d = "finish").

(** An error-content delta: its payload carries a (non-empty) explanation. *)
Definition isErrorContent (d : Delta) : bool := negb (bool_decide (content d = "")).

(** "Exactly one error-content delta followed by a terminal delta": the
    sequence holds exactly one error-content delta and ends in a finish. *)
Definition errorThenFinish (ds : list Delta) : bool :=
  bool_decide (length (filter (λ d, isErrorContent d = true) ds) = 1)
  && match last ds with Some d => isFinish d | None => false end.

(** The content a delta sequence has carried, payloads joined in order. *)
Definition streamedContent (ds : list Delta) : string :=
  foldr (λ d acc, content d +:+ acc) "" ds.

(** "Streamed, culminating in full content": the call fulfils with content
    that its deltas have carried, built up over the deltas or held whole by
    the last one. *)
Definition culminatesInStreamedContent (m : Async string) : bool :=
  match settles m with
  | Fulfilled c =>
      bool_decide (streamedContent (emitted m) = c)
      || bool_decide (content <$> last (emitted m) = Some c)
  | Rejected _ => false
  end.

(** An update request against an existing image document. *)
Definition sampleUpdate : UpdateDocumentCallbackProps :=
  {| document := {| doc_id := "doc-1"; doc_title := "A cat"; doc_kind := image;
                    doc_content := "iVBORw0KGgo="; doc_userId := "user-1" |};
     description := "make the cat blue" |}.

(* ===================================================================== *)
(** ** The model provider ([myProvider]) *)
(* ===================================================================== *)

Module Providers.

Inductive Middleware : Type :=
  | extractReasoningMiddleware (tagName : string).

Inductive LanguageModel : Type :=
  | mock (name : string)
  | anthropic (modelId : string)
  | wrapLanguageModel (model : LanguageModel) (middleware : Middleware).

(** A provider, by the [languageModels] object it was built from: the own
    properties of that object literal, selector to model. *)
Record Provider : Type := mkProvider { languageModels : gmap string LanguageModel }.

Definition customProvider (languageModels : gmap string LanguageModel) : Provider :=
  {| languageModels := languageModels |}.

Section MyProvider.
(** The four mock models imported from [./models.test] and the
    [isTestEnvironment] constant imported from [../constants]. *)
Variables chatModel reasoningModel titleModel artifactModel : LanguageModel.
Variable isTestEnvironment : bool.

Definition testLanguageModels : gmap string LanguageModel :=
  <["chat-model" := chatModel]>
  (<["chat-model-reasoning" := reasoningModel]>
  (<["title-model" := titleModel]>
  (<["artifact-model" := artifactModel]> ∅))).

Definition productionLanguageModels : gmap string LanguageModel :=
  <["chat-model" := anthropic "claude-3-haiku-20240307"]>
  (<["chat-model-reasoning" :=
       wrapLanguageModel (anthropic "claude-3-sonnet-20240229")
                         (extractReasoningMiddleware "think")]>
  (<["title-model" := anthropic "claude-3-haiku-20240307"]>
  (<["artifact-model" := anthropic "claude-3-haiku-20240307"]> ∅))).

Definition myProvider : Provider :=
  if isTestEnvironment
  then customProvider testLanguageModels
  else customProvider productionLanguageModels.
End MyProvider.

Definition selectors : gset string :=
  {[ "chat-model"; "chat-model-reasoning"; "title-model"; "artifact-model" ]}.

End Providers.

(* ===================================================================== *)
(** ** The resumable stream context *)
(* ===================================================================== *)

Module ResumableStream.

(** Modelled from the spec: the states of the resumable stream context of
    one production run (section 4.3); the context's implementation is not
    among the sources at hand, so the whole of this module follows the
    specification's description of it. *)
Inductive StreamState : Type := PENDING | STREAMING | FINISHED | ERRORED.

(** Modelled from the spec: [FINISHED] and [ERRORED] are the terminal states. *)
Definition terminal (s : StreamState) : bool :=
  match s with
  | FINISHED | ERRORED => true
  | PENDING | STREAMING => false
  end.

(** Modelled from the spec: a persisted log record
    [(streamId, sequenceNumber, deltaType, deltaPayload)] of the one stream
    id the context owns; the n-th delta of the run has sequence number n,
    so that a cursor counts the deltas a subscriber has already seen. *)
Record LogRecord : Type := mkRecord { sequenceNumber : nat; delta : Delta }.

(** Modelled from the spec: how a subscriber stands to the context: attached
    and receiving broadcasts, served the terminal signal, or gone. *)
Inductive Attachment : Type :=
  | Live          (* attached, receiving broadcasts *)
  | Signalled     (* received the terminal signal *)
  | Detached.     (* disconnected on its own *)

#[global] Instance Attachment_eq_dec : EqDecision Attachment.
Proof. solve_decision. Defined.

(** Modelled from the spec: a subscriber with its resume cursor, the
    length of the log at the moment it attached (the splice point), and
    the deltas it has been served so far. *)
Record Subscriber : Type := mkSubscriber {
  cursor : nat;
  splice : nat;
  observed : list Delta;
  attachment : Attachment
}.

(** Modelled from the spec: the context of one production run: its state,
    its durable log and the subscribers that ever attached, by attach order. *)
Record Context : Type := mkContext {
  state : StreamState;
  log : list LogRecord;
  subscribers : list Subscriber
}.

(** Modelled from the spec: a registered stream that produced nothing yet. *)
Definition init : Context :=
  {| state := PENDING; log := []; subscribers := [] |}.

(** The delta payloads of a log, in log order. *)
Definition payloads (l : list LogRecord) : list Delta := delta <$> l.

(** Modelled from the spec: persisting appends one record to the durable
    log, in arrival order, under the next sequence number. *)
Definition persist (d : Delta) (l : list LogRecord) : list LogRecord :=
  l ++ [{| sequenceNumber := S (length l); delta := d |}].

(** Modelled from the spec: replay serves the persisted deltas strictly
    after the cursor. *)
Definition replay (c : nat) (l : list LogRecord) : list Delta :=
  delta <$> filter (λ r, c < sequenceNumber r) l.

(** Modelled from the spec: a broadcast reaches the live subscribers. *)
Definition deliver (d : Delta) (s : Subscriber) : Subscriber :=
  match attachment s with
  | Live => {| cursor := cursor s; splice := splice s;
               observed := observed s ++ [d]; attachment := Live |}
  | _ => s
  end.

(** Modelled from the spec: on termination every attached subscriber
    receives the terminal signal. *)
Definition signal (s : Subscriber) : Subscriber :=
  match attachment s with
  | Live => {| cursor := cursor s; splice := splice s;
               observed := observed s; attachment := Signalled |}
  | _ => s
  end.

(** Modelled from the spec: a live reader going away. *)
Definition disconnect (s : Subscriber) : Subscriber :=
  match attachment s with
  | Live => {| cursor := cursor s; splice := splice s;
               observed := observed s; attachment := Detached |}
  | _ => s
  end.

(** Modelled from the spec: the terminal delta persisted when the producer
    fails: structurally a finish, only its content differs. *)
Definition errorDelta (reason : string) : Delta :=
  {| type := "finish"; content := reason |}.

(** Modelled from the spec: what can happen to a context. *)
Inductive Event : Type :=
  | Push (d : Delta)               (* the producer pushes a delta *)
  | Fail (reason : string)         (* producer error, stop signal, timeout *)
  | Attach (c : option nat)        (* a subscriber attaches at a cursor *)
  | Detach (i : nat).              (* subscriber [i] goes away *)

#[global] Instance Event_eq_dec : EqDecision Event.
Proof. solve_decision. Defined.

(** Modelled from the spec: the transition function of the context. A push
    or a failure in a terminal state changes nothing; a delta is persisted
    and broadcast in one step; an attaching subscriber is served the log
    tail after its cursor in the same step in which it starts to listen,
    and in a terminal state gets the terminal signal at once. *)
Definition step (ctx : Context) (e : Event) : Context :=
  match e with
  | Push d =>
      if terminal (state ctx) then ctx
      else if isFinish d then
        {| state := FINISHED;
           log := persist d (log ctx);
           subscribers := signal <$> (deliver d <$> subscribers ctx) |}
      else
        {| state := STREAMING;
           log := persist d (log ctx);
           subscribers := deliver d <$> subscribers ctx |}
  | Fail reason =>
      if terminal (state ctx) then ctx
      else
        {| state := ERRORED;
           log := persist (errorDelta reason) (log ctx);
           subscribers :=
             signal <$> (deliver (errorDelta reason) <$> subscribers ctx) |}
  | Attach c =>
      let c := default 0 c in
      {| state := state ctx;
         log := log ctx;
         subscribers :=
           subscribers ctx ++
             [{| cursor := c;
                 splice := length (log ctx);
                 observed := replay c (log ctx);
                 attachment := if terminal (state ctx) then Signalled else Live |}] |}
  | Detach i =>
      {| state := state ctx;
         log := log ctx;
         subscribers := alter disconnect i (subscribers ctx) |}
  end.

(** Modelled from the spec: the context after a trace of events. *)
Definition run (ctx : Context) (t : list Event) : Context := foldl step ctx t.

(** Modelled from the spec: the delta sequence D of a production run: what
    the producer emitted, up to and including its terminal delta. *)
Fixpoint produced (t : list Event) : list Delta :=
  match t with
  | [] => []
  | Push d :: t' => d :: (if isFinish d then [] else produced t')
  | Fail reason :: _ => [errorDelta reason]
  | _ :: t' => produced t'
  end.

(** No [Detach i] occurs in the trace. *)
Definition stays (i : nat) (t : list Event) : bool :=
  forallb (λ e, negb (bool_decide (e = Detach i))) t.

(** The log is numbered 1, 2, 3, ... in log order. *)
Definition wellNumbered (l : list LogRecord) : Prop :=
  ∀ i r, l !! i = Some r → sequenceNumber r = S i.

(** What a subscriber that never went away has been served when the log
    holds [D]: the tail after its cursor of the log as it stood when it
    attached, then everything persisted since. *)
Definition expected (s : Subscriber) (D : list Delta) : list Delta :=
  drop (cursor s) (take (splice s) D) ++ drop (splice s) D.

Definition subscriberOk (st : StreamState) (D : list Delta) (s : Subscriber) : Prop :=
  splice s ≤ length D
  ∧ observed s `prefix_of` expected s D
  ∧ (attachment s ≠ Detached → observed s = expected s D)
  ∧ (attachment s = Signalled → terminal st = true).

Definition Inv (ctx : Context) : Prop :=
  wellNumbered (log ctx)
  ∧ Forall (subscriberOk (state ctx) (payloads (log ctx))) (subscribers ctx).

(** A sample run, cut where a second subscriber resumes: the first four
    deltas with one subscriber attached from the start, then the rest. *)
Definition sampleBefore : list Event :=
  [ Attach None;
    Push {| type := "id"; content := "D1" |};
    Push {| type := "title"; content := "Notes" |};
    Push {| type := "kind"; content := "text" |};
    Push {| type := "text-delta"; content := "Hello" |} ].

Definition sampleAfter : list Event :=
  [ Push {| type := "text-delta"; content := " world" |};
    Detach 0;
    Push {| type := "finish"; content := "" |};
    Push {| type := "text-delta"; content := "late" |};
    Attach None ].

End ResumableStream.

(* ===================================================================== *)
(** ** Which models reach the Anthropic API *)
(* ===================================================================== *)

(** Whether calling a language model ends in a call of an [anthropic(...)]
    model: the model itself, or the model a middleware wraps. *)
Fixpoint anthropicBacked (m : Providers.LanguageModel) : bool :=
  match m with
  | Providers.mock _ => false
  | Providers.anthropic _ => true
  | Providers.wrapLanguageModel model _ => anthropicBacked model
  end.

(* ===================================================================== *)
(** ** OpenTelemetry registration ([instrumentation.ts]) *)
(* ===================================================================== *)

Module Instrumentation.

(** The argument of [registerOTel]. *)
Record OTelConfig : Type := mkOTelConfig { serviceName : string }.

(** What [register] acts on: the console, one entry per [console.log] call
    holding its arguments (a string, or [undefined] as [None]), and the
    configurations handed to [registerOTel] so far. *)
Record World : Type := mkWorld {
  console : list (list (option string));
  otel : list OTelConfig
}.

Definition console_log (args : list (option string)) (w : World) : World :=
  {| console := console w ++ [args]; otel := otel w |}.

Definition registerOTel (config : OTelConfig) (w : World) : World :=
  {| console := console w; otel := otel w ++ [config] |}.

(** [register()], run with [process.env] bound to [env]; a variable that is
    not set reads as [undefined]. *)
Definition register (env : gmap string string) (w : World) : World :=
  let w := console_log [Some " > Registering OpenTelemetry instrumentation"] w in
  let w := console_log [env !! "OTEL_EXPORTER_OTLP_ENDPOINT";
                        env !! "OTEL_EXPORTER_OTLP_HEADERS"] w in
  registerOTel {| serviceName := "ai-chatbot" |} w.

End Instrumentation.

(* ===================================================================== *)
(** ** Properties of the image document handler *)
(* ===================================================================== *)

Section ImageHandler.

Lemma onCreateDocument_run (props : CreateDocumentCallbackProps) (ds : list Delta) :
  onCreateDocument imageDocumentHandler props ds
  = (Fulfilled Image.errorMsg, ds ++ [Image.imageDelta]).
Proof. reflexivity. Qed.

Lemma onUpdateDocument_run (props : UpdateDocumentCallbackProps) (ds : list Delta) :
  onUpdateDocument imageDocumentHandler props ds
  = (Fulfilled Image.errorMsg, ds ++ [Image.imageDelta]).
Proof. reflexivity. Qed.

Lemma onCreateDocument_emitted (props : CreateDocumentCallbackProps) :
  emitted (onCreateDocument imageDocumentHandler props) = [Image.imageDelta].
Proof. reflexivity. Qed.

Lemma onUpdateDocument_emitted (props : UpdateDocumentCallbackProps) :
  emitted (onUpdateDocument imageDocumentHandler props) = [Image.imageDelta].
Proof. reflexivity. Qed.

Example errorThenFinish_accepts :
  errorThenFinish [ {| type := "image-delta"; content := Image.errorMsg |};
                    {| type := "finish"; content := "" |} ] = true.
Proof. vm_compute. reflexivity. Qed.

(** C1, as stated, fails: on the request to create an image titled
    "A cat" the handler emits the single delta [image-delta] with empty
    content; that sequence holds no error-content delta and does not end
    in a finish delta. *)
Lemma image_create_not_error_then_finish :
  emitted (onCreateDocument imageDocumentHandler
             {| id := "doc-1"; title := "A cat" |}) = [Image.imageDelta]
  /\ errorThenFinish
       (emitted (onCreateDocument imageDocumentHandler
                   {| id := "doc-1"; title := "A cat" |})) = false
  /\ filter (λ d, isErrorContent d = true)
       (emitted (onCreateDocument imageDocumentHandler
                   {| id := "doc-1"; title := "A cat" |})) = []
  /\ filter (λ d, isFinish d = true)
       (emitted (onCreateDocument imageDocumentHandler
                   {| id := "doc-1"; title := "A cat" |})) = [].
Proof. repeat split; vm_compute; reflexivity. Qed.

(** C1 (amended): for every image creation and every image update
    request, whatever was written to the stream before, the handler
    settles fulfilled (it never rejects) with the explanatory text as
    document content, and extends the stream by exactly one delta: an
    [image-delta] with empty content, which is not a finish delta. *)
Theorem image_unsupported_single_delta
  (cp : CreateDocumentCallbackProps) (up : UpdateDocumentCallbackProps)
  (ds : list Delta) :
  (onCreateDocument imageDocumentHandler cp ds
     = (Fulfilled Image.errorMsg, ds ++ [Image.imageDelta])
   /\ onUpdateDocument imageDocumentHandler up ds
     = (Fulfilled Image.errorMsg, ds ++ [Image.imageDelta]))
  /\ (forall r, fst (onCreateDocument imageDocumentHandler cp ds) <> Rejected r)
  /\ (forall r, fst (onUpdateDocument imageDocumentHandler up ds) <> Rejected r)
  /\ type Image.imageDelta = "image-delta"
  /\ content Image.imageDelta = ""
  /\ isFinish Image.imageDelta = false
  /\ isErrorContent Image.imageDelta = false.
Proof.
  rewrite onCreateDocument_run, onUpdateDocument_run.
  repeat split; try discriminate.
Qed.

(** C2: every call of the image handler's create operation settles
    fulfilled with full document content equal to the synthesized text
    "Image generation is not supported with Anthropic models."; it is never
    a rejection. *)
Theorem image_create_yields_error_text
  (props : CreateDocumentCallbackProps) (ds : list Delta) :
  fst (onCreateDocument imageDocumentHandler props ds)
    = Fulfilled "Image generation is not supported with Anthropic models."
  /\ settles (onCreateDocument imageDocumentHandler props)
    = Fulfilled Image.errorMsg.
Proof. split; reflexivity. Qed.

Example culminatesInStreamedContent_accepts :
  culminatesInStreamedContent
    (writeData {| type := "text-delta"; content := "Hello" |} ;;
     writeData {| type := "text-delta"; content := " world" |} ;;
     mret "Hello world") = true
  /\ culminatesInStreamedContent
       (writeData {| type := "image-delta"; content := "iVBORw0KGgo=" |} ;;
        mret "iVBORw0KGgo=") = true.
Proof. split; vm_compute; reflexivity. Qed.

(** C3, as stated, fails: asked to make the cat of an existing image
    document blue, the update operation streams no revision. Its one delta
    has an empty payload, so nothing streamed builds up to, or holds, the
    content it returns, and that content is the fixed explanatory text, not
    a revision of the document. *)
Lemma image_update_streams_no_revision :
  emitted (onUpdateDocument imageDocumentHandler sampleUpdate)
    = [ {| type := "image-delta"; content := "" |} ]
  /\ streamedContent (emitted (onUpdateDocument imageDocumentHandler sampleUpdate)) = ""
  /\ settles (onUpdateDocument imageDocumentHandler sampleUpdate)
     = Fulfilled "Image generation is not supported with Anthropic models."
  /\ culminatesInStreamedContent (onUpdateDocument imageDocumentHandler sampleUpdate)
     = false.
Proof. repeat split; vm_compute; reflexivity. Qed.

(** C3 (amended): on every input and every prior stream the update
    operation does exactly what the create operation does: it appends the
    one delta [image-delta] with empty content and fulfils with the fixed
    text "Image generation is not supported with Anthropic models.". No
    revision is streamed: the deltas carry no content, and the returned
    content is not what they carried. *)
Theorem image_update_mirrors_create
  (cp : CreateDocumentCallbackProps) (up : UpdateDocumentCallbackProps)
  (ds : list Delta) :
  onUpdateDocument imageDocumentHandler up ds
    = onCreateDocument imageDocumentHandler cp ds
  /\ onUpdateDocument imageDocumentHandler up ds
     = (Fulfilled "Image generation is not supported with Anthropic models.",
        ds ++ [ {| type := "image-delta"; content := "" |} ])
  /\ emitted (onUpdateDocument imageDocumentHandler up)
     = [ {| type := "image-delta"; content := "" |} ]
  /\ streamedContent (emitted (onUpdateDocument imageDocumentHandler up)) = ""
  /\ culminatesInStreamedContent (onUpdateDocument imageDocumentHandler up) = false.
Proof.
  rewrite onCreateDocument_run, onUpdateDocument_run.
  repeat split.
Qed.

(** C8: both operations are constant in their inputs: any two create calls,
    and any two update calls, settle with the same content and append the
    same deltas, on the same stream or on two different ones; the emitted
    deltas and the returned string do not depend on titles, descriptions or
    documents. *)
Theorem image_handler_ignores_inputs
  (cp1 cp2 : CreateDocumentCallbackProps)
  (up1 up2 : UpdateDocumentCallbackProps) (ds1 ds2 : list Delta) :
  onCreateDocument imageDocumentHandler cp1 ds1
    = onCreateDocument imageDocumentHandler cp2 ds1
  /\ onUpdateDocument imageDocumentHandler up1 ds1
    = onUpdateDocument imageDocumentHandler up2 ds1
  /\ emitted (onCreateDocument imageDocumentHandler cp1)
    = emitted (onCreateDocument imageDocumentHandler cp2)
  /\ emitted (onUpdateDocument imageDocumentHandler up1)
    = emitted (onUpdateDocument imageDocumentHandler up2)
  /\ fst (onCreateDocument imageDocumentHandler cp1 ds1)
    = fst (onCreateDocument imageDocumentHandler cp2 ds2)
  /\ fst (onUpdateDocument imageDocumentHandler up1 ds1)
    = fst (onUpdateDocument imageDocumentHandler up2 ds2)
  /\ drop (length ds1) (snd (onCreateDocument imageDocumentHandler cp1 ds1))
    = drop (length ds2) (snd (onCreateDocument imageDocumentHandler cp2 ds2))
  /\ drop (length ds1) (snd (onUpdateDocument imageDocumentHandler up1 ds1))
    = drop (length ds2) (snd (onUpdateDocument imageDocumentHandler up2 ds2)).
Proof.
  rewrite !onCreateDocument_run, !onUpdateDocument_run,
    !onCreateDocument_emitted, !onUpdateDocument_emitted. simpl.
  rewrite !drop_app_length. repeat split.
Qed.

(** C9: every delta the image handler writes has the empty string as
    content, so none carries the explanatory message; the message is the
    content both operations return. *)
Theorem image_deltas_have_empty_content
  (cp : CreateDocumentCallbackProps) (up : UpdateDocumentCallbackProps) :
  Forall (λ d, content d = "" /\ content d <> Image.errorMsg)
    (emitted (onCreateDocument imageDocumentHandler cp))
  /\ Forall (λ d, content d = "" /\ content d <> Image.errorMsg)
       (emitted (onUpdateDocument imageDocumentHandler up))
  /\ settles (onCreateDocument imageDocumentHandler cp)
     = Fulfilled "Image generation is not supported with Anthropic models."
  /\ settles (onUpdateDocument imageDocumentHandler up)
     = Fulfilled "Image generation is not supported with Anthropic models.".
Proof.
  rewrite onCreateDocument_emitted, onUpdateDocument_emitted.
  repeat split; repeat constructor; discriminate.
Qed.

End ImageHandler.

(* ===================================================================== *)
(** ** Properties of the model provider *)
(* ===================================================================== *)

Section ProviderSelectors.
Import Providers.

Lemma dom_testLanguageModels (cm rm tm am : LanguageModel) :
  dom (testLanguageModels cm rm tm am) = selectors.
Proof.
  unfold testLanguageModels, selectors.
  rewrite !dom_insert_L, dom_empty_L. set_solver.
Qed.

Lemma dom_productionLanguageModels :
  dom productionLanguageModels = selectors.
Proof.
  unfold productionLanguageModels, selectors.
  rewrite !dom_insert_L, dom_empty_L. set_solver.
Qed.

(** C10: whatever the flag, the [languageModels] object [myProvider] is
    built from has exactly the four selectors 'chat-model',
    'chat-model-reasoning', 'title-model' and 'artifact-model' as its own
    keys (a string is an own key iff it is one of them), the same in both
    configurations; the flag alone picks the table: the test table when it
    is set, the production table otherwise. *)
Theorem myProvider_same_selectors
  (cm rm tm am : LanguageModel) (isTestEnvironment : bool) (selector : string) :
  dom (languageModels (myProvider cm rm tm am isTestEnvironment)) = selectors
  /\ dom (languageModels (myProvider cm rm tm am true))
     = dom (languageModels (myProvider cm rm tm am false))
  /\ (is_Some (languageModels (myProvider cm rm tm am isTestEnvironment) !! selector)
      <-> selector ∈ selectors)
  /\ myProvider cm rm tm am true = customProvider (testLanguageModels cm rm tm am)
  /\ myProvider cm rm tm am false = customProvider productionLanguageModels.
Proof.
  assert (Hdom : forall b, dom (languageModels (myProvider cm rm tm am b)) = selectors).
  { intros []; simpl; [apply dom_testLanguageModels | apply dom_productionLanguageModels]. }
  split; [apply Hdom |].
  split; [by rewrite !Hdom |].
  split; [| split; reflexivity].
  rewrite <- elem_of_dom, Hdom. reflexivity.
Qed.

End ProviderSelectors.

(* ===================================================================== *)
(** ** Properties of the resumable stream context *)
(* ===================================================================== *)

Section StreamLog.
Import ResumableStream.

Lemma payloads_persist (d : Delta) (l : list LogRecord) :
  payloads (persist d l) = payloads l ++ [d].
Proof. unfold payloads, persist. by rewrite fmap_app. Qed.

Lemma length_payloads (l : list LogRecord) : length (payloads l) = length l.
Proof. apply length_fmap. Qed.

Lemma wellNumbered_nil : wellNumbered [].
Proof. intros i r Hi. by rewrite lookup_nil in Hi. Qed.

Lemma wellNumbered_persist (d : Delta) (l : list LogRecord) :
  wellNumbered l → wellNumbered (persist d l).
Proof.
  intros Hl i r Hi. unfold persist in Hi.
  apply lookup_snoc_Some in Hi as [[_ Hi] | [-> <-]]; [by apply Hl | done].
Qed.

Lemma wellNumbered_snoc_inv (l : list LogRecord) (r : LogRecord) :
  wellNumbered (l ++ [r]) → wellNumbered l ∧ sequenceNumber r = S (length l).
Proof.
  intros H. split.
  - intros i r' Hi. apply H. by apply lookup_app_l_Some.
  - apply H. by rewrite list_lookup_middle.
Qed.

(** On a well-numbered log, the records strictly after cursor [c] are the
    log without its first [c] deltas. *)
Lemma replay_drop (c : nat) (l : list LogRecord) :
  wellNumbered l → replay c l = drop c (payloads l).
Proof.
  induction l as [| r l IH] using rev_ind; intros Hwf.
  - by destruct c.
  - apply wellNumbered_snoc_inv in Hwf as [Hl Hr].
    unfold replay, payloads in *.
    rewrite filter_app, !fmap_app, (IH Hl). simpl.
    rewrite filter_cons, filter_nil.
    destruct (decide (c < sequenceNumber r)) as [Hlt | Hge]; simpl.
    + rewrite drop_app_le; [done | rewrite length_fmap; lia].
    + rewrite app_nil_r, !drop_ge; [done | | ]; rewrite ?length_app, !length_fmap; simpl; lia.
Qed.

End StreamLog.

Section StreamInvariant.
Import ResumableStream.

Lemma expected_snoc (s : Subscriber) (D : list Delta) (d : Delta) :
  splice s ≤ length D → expected s (D ++ [d]) = expected s D ++ [d].
Proof.
  intros Hs. unfold expected.
  rewrite take_app_le, drop_app_le by done. by rewrite app_assoc.
Qed.

Lemma expected_in_range (s : Subscriber) (D : list Delta) :
  cursor s ≤ splice s → splice s ≤ length D → expected s D = drop (cursor s) D.
Proof.
  intros Hc Hs. unfold expected.
  transitivity (drop (cursor s) (take (splice s) D ++ drop (splice s) D)).
  - rewrite drop_app_le; [done | rewrite length_take; lia].
  - by rewrite take_drop.
Qed.

Lemma deliver_fields (d : Delta) (s : Subscriber) :
  cursor (deliver d s) = cursor s ∧ splice (deliver d s) = splice s
  ∧ attachment (deliver d s) = attachment s.
Proof. unfold deliver. by destruct (attachment s) eqn:E. Qed.

Lemma signal_fields (s : Subscriber) :
  cursor (signal s) = cursor s ∧ splice (signal s) = splice s
  ∧ observed (signal s) = observed s
  ∧ (attachment s ≠ Detached → attachment (signal s) ≠ Detached)
  ∧ attachment (signal s) ≠ Live.
Proof.
  unfold signal. destruct (attachment s) eqn:E; simpl; repeat split; congruence.
Qed.

Lemma subscriberOk_deliver (st st' : StreamState) (D : list Delta) (d : Delta)
    (s : Subscriber) :
  terminal st = false → subscriberOk st D s → subscriberOk st' (D ++ [d]) (deliver d s).
Proof.
  intros Hst (Hsp & Hpre & Heq & Hsig).
  assert (Hexp : expected (deliver d s) (D ++ [d]) = expected s D ++ [d]).
  { rewrite <- (expected_snoc s D d Hsp). unfold expected.
    by destruct (deliver_fields d s) as (-> & -> & _). }
  unfold subscriberOk. rewrite Hexp.
  destruct (deliver_fields d s) as (_ & -> & Hatt). rewrite Hatt.
  split; [rewrite length_app; lia |].
  unfold deliver. destruct (attachment s) eqn:E; simpl.
  - rewrite Heq by done. repeat split; done.
  - specialize (Hsig eq_refl). congruence.
  - repeat split; [by apply prefix_app_r | done | done].
Qed.

Lemma subscriberOk_signal (st st' : StreamState) (D : list Delta) (s : Subscriber) :
  terminal st' = true → subscriberOk st D s → subscriberOk st' D (signal s).
Proof.
  intros Hst (Hsp & Hpre & Heq & Hsig).
  unfold subscriberOk, expected, signal.
  destruct (attachment s) eqn:E; simpl; rewrite ?E; repeat split; try done.
  intros _. by apply Heq.
Qed.

Lemma subscriberOk_disconnect (st : StreamState) (D : list Delta) (s : Subscriber) :
  subscriberOk st D s → subscriberOk st D (disconnect s).
Proof.
  intros (Hsp & Hpre & Heq & Hsig).
  unfold subscriberOk, expected, disconnect.
  destruct (attachment s) eqn:E; simpl; rewrite ?E; repeat split; try done.
Qed.

Lemma subscriberOk_attach (st : StreamState) (l : list LogRecord) (c : nat) :
  wellNumbered l →
  subscriberOk st (payloads l)
    {| cursor := c; splice := length l; observed := replay c l;
       attachment := if terminal st then Signalled else Live |}.
Proof.
  intros Hwf.
  assert (Hexp : replay c l
                 = drop c (take (length l) (payloads l)) ++ drop (length l) (payloads l)).
  { rewrite (replay_drop c l Hwf), take_ge, (drop_ge (payloads l) (length l)), app_nil_r;
      [done | |]; by rewrite length_payloads. }
  unfold subscriberOk, expected; simpl. rewrite <- Hexp.
  repeat split; [by rewrite length_payloads | done |].
  by destruct (terminal st).
Qed.

(** Every step keeps the log well numbered and every subscriber in step
    with the log. *)
Lemma step_Inv (ctx : Context) (e : Event) : Inv ctx → Inv (step ctx e).
Proof.
  intros [Hwf Hsubs]. destruct e as [d | reason | c | i]; unfold step.
  - destruct (terminal (state ctx)) eqn:Hst; [by split |].
    destruct (isFinish d); split; simpl;
      try (by apply wellNumbered_persist); rewrite payloads_persist.
    + rewrite <- list_fmap_compose. apply Forall_fmap.
      eapply Forall_impl; [exact Hsubs |]. intros s Hs. simpl.
      apply (subscriberOk_signal (state ctx)); [done |].
      by apply (subscriberOk_deliver (state ctx)).
    + apply Forall_fmap. eapply Forall_impl; [exact Hsubs |]. intros s Hs. simpl.
      by apply (subscriberOk_deliver (state ctx)).
  - destruct (terminal (state ctx)) eqn:Hst; [by split |].
    split; simpl; [by apply wellNumbered_persist |]. rewrite payloads_persist.
    rewrite <- list_fmap_compose. apply Forall_fmap.
    eapply Forall_impl; [exact Hsubs |]. intros s Hs. simpl.
    apply (subscriberOk_signal (state ctx)); [done |].
      by apply (subscriberOk_deliver (state ctx)).
  - split; simpl; [done |]. apply Forall_app. split; [done |].
    apply Forall_singleton. by apply subscriberOk_attach.
  - split; simpl; [done |]. apply Forall_alter; [done |].
    intros s _ Hs. by apply subscriberOk_disconnect.
Qed.

Lemma init_Inv : Inv init.
Proof. split; [apply wellNumbered_nil | constructor]. Qed.

Lemma run_Inv (ctx : Context) (t : list Event) : Inv ctx → Inv (run ctx t).
Proof.
  revert ctx. induction t as [| e t IH]; intros ctx Hctx; [done |].
  apply IH. by apply step_Inv.
Qed.

End StreamInvariant.

Section StreamRuns.
Import ResumableStream.

Lemma run_app (ctx : Context) (t1 t2 : list Event) :
  run ctx (t1 ++ t2) = run (run ctx t1) t2.
Proof. apply foldl_app. Qed.

Lemma step_terminal (ctx : Context) (e : Event) :
  terminal (state ctx) = true →
  state (step ctx e) = state ctx ∧ log (step ctx e) = log ctx.
Proof.
  intros Hst. destruct e; unfold step; rewrite ?Hst; by split.
Qed.

Lemma run_terminal (ctx : Context) (t : list Event) :
  terminal (state ctx) = true →
  state (run ctx t) = state ctx ∧ log (run ctx t) = log ctx.
Proof.
  revert ctx. induction t as [| e t IH]; intros ctx Hst; [done |].
  destruct (step_terminal ctx e Hst) as [Hs Hl].
  destruct (IH (step ctx e)) as [Hs' Hl']; [by rewrite Hs |].
  simpl. split; congruence.
Qed.

(** The log of a run grows by what the producer emitted, and by nothing
    once the stream is terminal. *)
Lemma payloads_run (ctx : Context) (t : list Event) :
  payloads (log (run ctx t))
  = payloads (log ctx) ++ (if terminal (state ctx) then [] else produced t).
Proof.
  revert ctx. induction t as [| e t IH]; intros ctx.
  - simpl. destruct (terminal (state ctx)); by rewrite app_nil_r.
  - change (run ctx (e :: t)) with (run (step ctx e) t). rewrite IH.
    destruct e as [d | reason | c | i]; simpl.
    + destruct (terminal (state ctx)) eqn:Hst; simpl; [by rewrite Hst |].
      destruct (isFinish d); simpl; rewrite payloads_persist, <- app_assoc; done.
    + destruct (terminal (state ctx)) eqn:Hst; simpl; [by rewrite Hst |].
      rewrite payloads_persist, <- app_assoc; done.
    + done.
    + done.
Qed.

Lemma payloads_run_init (t : list Event) :
  payloads (log (run init t)) = produced t.
Proof. by rewrite payloads_run. Qed.

(** A subscriber that does not go away keeps its place, its cursor and its
    splice point through a step. *)
Lemma step_keeps (ctx : Context) (e : Event) (i : nat) (s : Subscriber) :
  subscribers ctx !! i = Some s → e ≠ Detach i → attachment s ≠ Detached →
  ∃ s', subscribers (step ctx e) !! i = Some s'
        ∧ cursor s' = cursor s ∧ splice s' = splice s
        ∧ attachment s' ≠ Detached.
Proof.
  intros Hi He Hatt.
  assert (Hdel : ∀ d, cursor (deliver d s) = cursor s ∧ splice (deliver d s) = splice s
                      ∧ attachment (deliver d s) ≠ Detached).
  { intros d. destruct (deliver_fields d s) as (-> & -> & ->). done. }
  assert (Hsig : ∀ d, cursor (signal (deliver d s)) = cursor s
                      ∧ splice (signal (deliver d s)) = splice s
                      ∧ attachment (signal (deliver d s)) ≠ Detached).
  { intros d. destruct (Hdel d) as (Hc & Hs & Ha).
    destruct (signal_fields (deliver d s)) as (-> & -> & _ & Hk & _). auto. }
  destruct e as [d | reason | c | j]; unfold step.
  - destruct (terminal (state ctx)); [by exists s |].
    destruct (isFinish d); simpl.
    + exists (signal (deliver d s)). by rewrite !list_lookup_fmap, Hi.
    + exists (deliver d s). by rewrite !list_lookup_fmap, Hi.
  - destruct (terminal (state ctx)); [by exists s |]. simpl.
    exists (signal (deliver (errorDelta reason) s)). by rewrite !list_lookup_fmap, Hi.
  - simpl. exists s. split; [by apply lookup_app_l_Some | done].
  - simpl. exists s. rewrite list_lookup_alter_ne; [done | congruence].
Qed.

Lemma run_keeps (ctx : Context) (t : list Event) (i : nat) (s : Subscriber) :
  subscribers ctx !! i = Some s → stays i t = true → attachment s ≠ Detached →
  ∃ s', subscribers (run ctx t) !! i = Some s'
        ∧ cursor s' = cursor s ∧ splice s' = splice s
        ∧ attachment s' ≠ Detached.
Proof.
  revert ctx s. induction t as [| e t IH]; intros ctx s Hi Hst Hatt.
  - by exists s.
  - simpl in Hst. apply andb_true_iff in Hst as [He Ht].
    apply negb_true_iff, bool_decide_eq_false in He.
    destruct (step_keeps ctx e i s Hi He Hatt) as (s1 & Hi1 & Hc1 & Hs1 & Ha1).
    destruct (IH (step ctx e) s1 Hi1 Ht Ha1) as (s2 & Hi2 & Hc2 & Hs2 & Ha2).
    exists s2. repeat split; [done | congruence | congruence | done].
Qed.

End StreamRuns.

Section StreamClaims.
Import ResumableStream.

(** C5: for every run, replaying the persisted log from cursor 0 gives the
    delta sequence the producer emitted in that run, same payloads, same
    order; every subscriber that started from cursor 0, attached from the
    outset or resuming later, has observed a prefix of that very sequence,
    and the whole of it unless it went away. *)
Theorem replay_from_start_reproduces_run (t : list Event) :
  replay 0 (log (run init t)) = produced t
  ∧ Forall (λ s, observed s `prefix_of` produced t)
      (filter (λ s, cursor s = 0) (subscribers (run init t)))
  ∧ Forall (λ s, observed s = produced t)
      (filter (λ s, cursor s = 0 ∧ attachment s ≠ Detached)
         (subscribers (run init t))).
Proof.
  destruct (run_Inv init t init_Inv) as [Hwf Hsubs].
  rewrite payloads_run_init in Hsubs.
  split; [by rewrite (replay_drop 0 _ Hwf), drop_0, payloads_run_init |].
  rewrite Forall_forall in Hsubs.
  split; apply Forall_forall; intros s Hs; apply list_elem_of_filter in Hs as [Hc Hin];
    destruct (Hsubs s Hin) as (Hsp & Hpre & Heq & _).
  - rewrite expected_in_range in Hpre; [| lia | done].
    by rewrite Hc, drop_0 in Hpre.
  - destruct Hc as [Hc Hatt]. rewrite (Heq Hatt), expected_in_range; [| lia | done].
    by rewrite Hc, drop_0.
Qed.

(** C6: let D be the deltas produced so far and c a cursor with
    c <= len(D). A subscriber that resumes from c and does not go away has
    observed, after any continuation of the run, exactly D[c:] followed by
    the deltas persisted after D, in log order: the run's whole sequence
    without its first c deltas, nothing twice and nothing missing. *)
Theorem resume_from_cursor (t0 : list Event) (c : nat) (t : list Event) :
  c ≤ length (produced t0) →
  stays (length (subscribers (run init t0))) t = true →
  ∃ s live,
    subscribers (run init (t0 ++ Attach (Some c) :: t))
      !! length (subscribers (run init t0)) = Some s
    ∧ cursor s = c
    ∧ produced (t0 ++ Attach (Some c) :: t) = produced t0 ++ live
    ∧ observed s = drop c (produced t0) ++ live
    ∧ observed s = drop c (produced (t0 ++ Attach (Some c) :: t)).
Proof.
  intros Hc Hstay.
  set (ctx := run init t0). set (i := length (subscribers ctx)).
  set (full := t0 ++ Attach (Some c) :: t).
  assert (Hrun : run init full = run (step ctx (Attach (Some c))) t).
  { unfold full. by rewrite run_app. }
  pose proof (run_Inv init t0 init_Inv) as [Hwf0 _]. fold ctx in Hwf0.
  assert (Hlen : length (log ctx) = length (produced t0)).
  { unfold ctx. by rewrite <- length_payloads, payloads_run_init. }
  (* the subscriber as it attaches *)
  assert (Hi0 : ∃ s0, subscribers (step ctx (Attach (Some c))) !! i = Some s0
                      ∧ cursor s0 = c ∧ splice s0 = length (log ctx)
                      ∧ attachment s0 ≠ Detached).
  { eexists. split; [apply list_lookup_middle; reflexivity |]. simpl.
    repeat split. by destruct (terminal (state ctx)). }
  destruct Hi0 as (s0 & Hi0 & Hc0 & Hs0 & Ha0).
  destruct (run_keeps _ t i s0 Hi0 Hstay Ha0) as (s & Hi & Hcs & Hss & Has).
  rewrite <- Hrun in Hi.
  (* the log at the end extends the log at attach time *)
  assert (Hext : ∃ live, produced full = produced t0 ++ live) .
  { rewrite <- (payloads_run_init full), <- (payloads_run_init t0), Hrun, payloads_run.
    simpl. fold ctx. eauto. }
  destruct Hext as [live Hlive].
  (* the invariant at the end *)
  destruct (run_Inv init full init_Inv) as [_ Hsubs].
  rewrite payloads_run_init in Hsubs.
  destruct (Forall_lookup_1 _ _ _ _ Hsubs Hi) as (Hsp & _ & Heq & _).
  exists s, live. split; [done |]. split; [congruence |]. split; [done |].
  rewrite (Heq Has).
  split.
  - unfold expected. rewrite Hss, Hcs, Hc0, Hs0, Hlen, Hlive.
    by rewrite take_app_length, drop_app_length.
  - rewrite expected_in_range; [congruence | lia | done].
Qed.

(** C7: a stream in state FINISHED or ERRORED stays in that state through
    every event and so through every trace of events; its log is not
    extended any more. *)
Theorem terminal_states_are_absorbing (ctx : Context) (e : Event) (t : list Event) :
  state ctx = FINISHED ∨ state ctx = ERRORED →
  state (step ctx e) = state ctx
  ∧ state (run ctx t) = state ctx
  ∧ log (run ctx t) = log ctx.
Proof.
  intros Hst.
  assert (Hterm : terminal (state ctx) = true) by (by destruct Hst as [-> | ->]).
  split; [apply (step_terminal ctx e Hterm) | apply (run_terminal ctx t Hterm)].
Qed.

End StreamClaims.

Section StreamSamples.
Import ResumableStream.

Example sample_produced :
  produced (sampleBefore ++ Attach (Some 2) :: sampleAfter)
  = [ {| type := "id"; content := "D1" |};
      {| type := "title"; content := "Notes" |};
      {| type := "kind"; content := "text" |};
      {| type := "text-delta"; content := "Hello" |};
      {| type := "text-delta"; content := " world" |};
      {| type := "finish"; content := "" |} ].
Proof. vm_compute. reflexivity. Qed.

Example sample_state :
  state (run init (sampleBefore ++ Attach (Some 2) :: sampleAfter)) = FINISHED.
Proof. vm_compute. reflexivity. Qed.

(** The subscriber resuming at cursor 2 has skipped the first two deltas;
    the one that left after five deltas holds those five; the one that
    attaches after the finish is served the whole log and the terminal
    signal at once. *)
Example sample_subscribers :
  (λ s, (cursor s, length (observed s), attachment s))
    <$> subscribers (run init (sampleBefore ++ Attach (Some 2) :: sampleAfter))
  = [ (0, 5, Detached); (2, 4, Signalled); (0, 6, Signalled) ].
Proof. vm_compute. reflexivity. Qed.

Example sample_resumed_observed :
  observed <$> subscribers (run init (sampleBefore ++ Attach (Some 2) :: sampleAfter)) !! 1
  = Some [ {| type := "kind"; content := "text" |};
           {| type := "text-delta"; content := "Hello" |};
           {| type := "text-delta"; content := " world" |};
           {| type := "finish"; content := "" |} ].
Proof. vm_compute. reflexivity. Qed.

(** A cursor beyond the end of the log is outside the resumption contract:
    the subscriber is still sent every later delta. *)
Example cursor_beyond_log :
  observed <$> subscribers
     (run init [ Push {| type := "id"; content := "D1" |}; Attach (Some 3);
                 Push {| type := "title"; content := "Notes" |} ]) !! 0
  = Some [ {| type := "title"; content := "Notes" |} ].
Proof. vm_compute. reflexivity. Qed.

Lemma resume_from_cursor_witness :
  ∃ s live,
    subscribers (run init (sampleBefore ++ Attach (Some 2) :: sampleAfter))
      !! length (subscribers (run init sampleBefore)) = Some s
    ∧ cursor s = 2
    ∧ produced (sampleBefore ++ Attach (Some 2) :: sampleAfter)
      = produced sampleBefore ++ live
    ∧ observed s = drop 2 (produced sampleBefore) ++ live
    ∧ observed s = drop 2 (produced (sampleBefore ++ Attach (Some 2) :: sampleAfter)).
Proof.
  apply (resume_from_cursor sampleBefore 2 sampleAfter).
  - vm_compute. lia.
  - vm_compute. reflexivity.
Defined.

Lemma terminal_states_are_absorbing_witness :
  state (step (run init [Fail "provider error"]) (Push Image.imageDelta))
    = state (run init [Fail "provider error"])
  ∧ state (run (run init [Fail "provider error"]) sampleAfter)
    = state (run init [Fail "provider error"])
  ∧ log (run (run init [Fail "provider error"]) sampleAfter)
    = log (run init [Fail "provider error"]).
Proof.
  apply (terminal_states_are_absorbing
           (run init [Fail "provider error"]) (Push Image.imageDelta) sampleAfter).
  right. reflexivity.
Defined.

End StreamSamples.

(* ===================================================================== *)
(** ** Further properties of the model provider *)
(* ===================================================================== *)

Section ProviderTables.
Import Providers.

Lemma lookup_four_selectors (a b c d : LanguageModel) (selector : string) :
  (<["chat-model" := a]>
     (<["chat-model-reasoning" := b]>
        (<["title-model" := c]>
           (<["artifact-model" := d]> (∅ : gmap string LanguageModel))))) !! selector
  = if decide (selector = "chat-model") then Some a
    else if decide (selector = "chat-model-reasoning") then Some b
    else if decide (selector = "title-model") then Some c
    else if decide (selector = "artifact-model") then Some d
    else None.
Proof.
  destruct (decide (selector = "chat-model")) as [-> | H1]; [done |].
  rewrite lookup_insert_ne by done.
  destruct (decide (selector = "chat-model-reasoning")) as [-> | H2]; [done |].
  rewrite lookup_insert_ne by done.
  destruct (decide (selector = "title-model")) as [-> | H3]; [done |].
  rewrite lookup_insert_ne by done.
  destruct (decide (selector = "artifact-model")) as [-> | H4]; [done |].
  rewrite lookup_insert_ne by done. apply lookup_empty.
Qed.

Lemma test_lookup (cm rm tm am : LanguageModel) (selector : string) (m : LanguageModel) :
  languageModels (myProvider cm rm tm am true) !! selector = Some m ↔
    (selector = "chat-model" ∧ m = cm)
    ∨ (selector = "chat-model-reasoning" ∧ m = rm)
    ∨ (selector = "title-model" ∧ m = tm)
    ∨ (selector = "artifact-model" ∧ m = am).
Proof.
  unfold myProvider, customProvider, testLanguageModels. simpl.
  rewrite lookup_four_selectors.
  destruct (decide (selector = "chat-model")) as [-> | H1]; [intuition congruence |].
  destruct (decide (selector = "chat-model-reasoning")) as [-> | H2]; [intuition congruence |].
  destruct (decide (selector = "title-model")) as [-> | H3]; [intuition congruence |].
  destruct (decide (selector = "artifact-model")) as [-> | H4]; intuition congruence.
Qed.


Lemma production_lookup_cases
  (cm rm tm am : LanguageModel) (selector : string) (m : LanguageModel) :
  languageModels (myProvider cm rm tm am false) !! selector = Some m →
  m = wrapLanguageModel (anthropic "claude-3-sonnet-20240229")
                        (extractReasoningMiddleware "think")
  ∨ m = anthropic "claude-3-haiku-20240307".
Proof.
  unfold myProvider, customProvider, productionLanguageModels. simpl.
  rewrite lookup_four_selectors.
  repeat destruct (decide _); intuition congruence.
Qed.

(** X2: the flag decides whether the models registered with the provider
    reach the Anthropic API. If none of the four imported mock models is
    backed by Anthropic, then every model held by the [languageModels]
    object [myProvider] is built from is backed by Anthropic exactly when
    [isTestEnvironment] is false: none of the four in the test environment,
    all four in production. *)
Theorem flag_decides_anthropic
  (cm rm tm am : LanguageModel) (isTestEnvironment : bool) :
  Forall (λ mock, anthropicBacked mock = false) [cm; rm; tm; am] →
  size (languageModels (myProvider cm rm tm am isTestEnvironment)) = 4
  ∧ map_Forall (λ _ m, anthropicBacked m = negb isTestEnvironment)
      (languageModels (myProvider cm rm tm am isTestEnvironment)).
Proof.
  intros Hmocks.
  apply Forall_cons in Hmocks as [Hcm Hmocks].
  apply Forall_cons in Hmocks as [Hrm Hmocks].
  apply Forall_cons in Hmocks as [Htm Hmocks].
  apply Forall_cons in Hmocks as [Ham _].
  split.
  - rewrite <- size_dom.
    destruct isTestEnvironment; simpl;
      rewrite ?dom_testLanguageModels, ?dom_productionLanguageModels;
      vm_compute; reflexivity.
  - intros selector m Hm. destruct isTestEnvironment; simpl.
    + apply test_lookup in Hm as [[_ ->] | [[_ ->] | [[_ ->] | [_ ->]]]]; done.
    + apply production_lookup_cases in Hm as [-> | ->]; done.
Qed.

End ProviderTables.

(* ===================================================================== *)
(** ** Properties of the OpenTelemetry registration *)
(* ===================================================================== *)

Section InstrumentationFacts.
Import Instrumentation.

Lemma register_unfold (env : gmap string string) (w : World) :
  register env w
  = {| console := console w
         ++ [[Some " > Registering OpenTelemetry instrumentation"];
             [env !! "OTEL_EXPORTER_OTLP_ENDPOINT"; env !! "OTEL_EXPORTER_OTLP_HEADERS"]];
       otel := otel w ++ [{| serviceName := "ai-chatbot" |}] |}.
Proof.
  unfold register, registerOTel, console_log. simpl. by rewrite <- app_assoc.
Qed.


(** X4: [register] only adds to what is there: earlier console lines and
    earlier registrations are kept, and each call appends two console lines
    and one registration under the service name 'ai-chatbot', whether or not
    the exporter variables are set. There is no guard against repetition:
    n calls leave n further registrations. *)
Theorem register_repeated (env : gmap string string) (w : World) (n : nat) :
  otel (Nat.iter n (register env) w)
    = otel w ++ replicate n {| serviceName := "ai-chatbot" |}
  ∧ console w `prefix_of` console (Nat.iter n (register env) w)
  ∧ length (console (Nat.iter n (register env) w)) = length (console w) + 2 * n.
Proof.
  induction n as [| n (IHo & IHp & IHl)].
  - simpl. by rewrite app_nil_r, Nat.add_0_r.
  - rewrite Nat.iter_succ, register_unfold. cbn [otel console].
    rewrite IHo, replicate_S_end, length_app, IHl. repeat split.
    + by rewrite app_assoc.
    + by apply prefix_app_r.
    + simpl. lia.
Qed.

End InstrumentationFacts.

Section ProviderWitness.
Import Providers.

Lemma flag_decides_anthropic_witness :
  size (languageModels (myProvider (mock "chat") (mock "reasoning") (mock "title")
                          (mock "artifact") true)) = 4
  ∧ map_Forall (λ _ m, anthropicBacked m = negb true)
      (languageModels (myProvider (mock "chat") (mock "reasoning") (mock "title")
                         (mock "artifact") true)).
Proof.
  apply (flag_decides_anthropic (mock "chat") (mock "reasoning") (mock "title")
           (mock "artifact") true).
  repeat constructor.
Defined.

End ProviderWitness.
